(** * ConfigResolver: the API base URL of the ERP client

    The repository holds one configuration module in two copies,
    [src/frontend/src/config.js] and [src/unnamed/part_000]:
<<
      // API Configuration
      export const API_URL = import.meta.env.VITE_API_URL || '<fallback>';

      console.log('API URL:', API_URL);

      export default API_URL;
>>
    The development has three layers:
    - [JS]: the fragment of JavaScript the module is written in (primitive
      values, truthiness, short-circuit [||], property reads, [const]
      bindings, [console.log], module exports and the module cache), as an
      error-and-state monad over an explicit world;
    - [FrontendConfig] and [UnnamedPart000]: the two files, statement by
      statement;
    - the properties of the resolved URL. *)

From stdpp Require Import base option gmap strings list.

(** ** The JavaScript fragment *)

Module JS.

(** The primitive values that can reach the module.  Vite fills
    [import.meta.env] with strings and booleans; a key that is not defined
    reads as [undefined], and [null] is kept because the contract of the
    resolver names it. *)
Inductive JsValue : Type :=
  | JUndefined
  | JNull
  | JBool (b : bool)
  | JStr (s : string).

#[global] Instance JsValue_eq_dec : EqDecision JsValue.
Proof. solve_decision. Defined.

(** ECMAScript ToBoolean: [undefined], [null], [false] and the empty string
    are falsy; every other value of the fragment is truthy. *)
Definition ToBoolean (v : JsValue) : bool :=
  match v with
  | JUndefined => false
  | JNull => false
  | JBool b => b
  | JStr EmptyString => false
  | JStr (String _ _) => true
  end.

Inductive JsError : Type :=
  | TypeError (msg : string)
  | ReferenceError (msg : string).

(** The result of evaluating an expression or a statement. *)
Inductive Completion (A : Type) : Type :=
  | Normal (a : A)
  | Throw (e : JsError).
Arguments Normal {A} a.
Arguments Throw {A} e.

(** A binding of the module's environment record. *)
Inductive BindingKind : Type := ConstBinding | LetBinding.

Record Binding : Type := mkBinding {
  bind_kind : BindingKind;
  bind_value : JsValue
}.

(** The module record keeps whether its body has run (the module map of the
    host evaluates a module at most once). *)
Inductive ModuleStatus : Type :=
  | NotEvaluated
  | Evaluated
  | EvaluationFailed (e : JsError).

(** What the module can observe or change: the lines written to the
    console (oldest first), its own bindings, its export table (export name
    to local binding, exports being live views of the bindings) and its
    status. *)
Record World : Type := mkWorld {
  console_out : list string;
  scope : gmap string Binding;
  export_table : gmap string string;
  status : ModuleStatus
}.

Definition initial_world (printed : list string) : World :=
  mkWorld printed ∅ ∅ NotEvaluated.

(** [import.meta]: the host may or may not define its [env] property; Vite
    always does. *)
Record ImportMeta : Type := mkImportMeta {
  meta_env : option (gmap string JsValue)
}.

Definition vite_meta (env : gmap string JsValue) : ImportMeta :=
  mkImportMeta (Some env).

Definition bare_meta : ImportMeta := mkImportMeta None.

(** Reading a property of the [env] object: an absent key is [undefined]. *)
Definition env_get (env : gmap string JsValue) (key : string) : JsValue :=
  default JUndefined (env !! key).

(** *** Evaluation monad *)

Definition Eval (A : Type) : Type := World → Completion A * World.

Definition eval_ret {A : Type} (a : A) : Eval A := λ w, (Normal a, w).

Definition eval_bind {A B : Type} (m : Eval A) (k : A → Eval B) : Eval B :=
  λ w, match m w with
       | (Normal a, w') => k a w'
       | (Throw e, w') => (Throw e, w')
       end.

Definition throw {A : Type} (e : JsError) : Eval A := λ w, (Throw e, w).

#[global] Instance Eval_ret : MRet Eval := @eval_ret.
#[global] Instance Eval_bind : MBind Eval := λ A B k m, eval_bind m k.

(** *** Expressions *)

Definition literal (s : string) : Eval JsValue := mret (JStr s).

(** [import.meta.env] *)
Definition import_meta_env (meta : ImportMeta)
  : Eval (option (gmap string JsValue)) :=
  mret (meta_env meta).

(** [obj.key]: reading a property of [undefined] throws. *)
Definition member (obj : Eval (option (gmap string JsValue))) (key : string)
  : Eval JsValue :=
  o ← obj;
  match o with
  | Some env => mret (env_get env key)
  | None =>
      throw (TypeError ("Cannot read properties of undefined (reading '"
                          +:+ key +:+ "')"))
  end.

(** [l || r]: the right operand is evaluated only when the left one is
    falsy, and the chosen operand is the result as it is. *)
Definition or_expr (l r : Eval JsValue) : Eval JsValue :=
  v ← l;
  if ToBoolean v then mret v else r.

(** Reading an identifier. *)
Definition read_var (name : string) : Eval JsValue :=
  λ w, match scope w !! name with
       | Some b => (Normal (bind_value b), w)
       | None => (Throw (ReferenceError (name +:+ " is not defined")), w)
       end.

(** *** Statements *)

(** [const name = v] and [let name = v]. *)
Definition declare (kind : BindingKind) (name : string) (v : JsValue)
  : Eval unit :=
  λ w, (Normal (),
        mkWorld (console_out w)
                (<[name := mkBinding kind v]> (scope w))
                (export_table w)
                (status w)).

(** [name = v] in the module: allowed on a [let] binding only. *)
Definition assign (name : string) (v : JsValue) : Eval unit :=
  λ w, match scope w !! name with
       | Some (mkBinding LetBinding _) =>
           (Normal (),
            mkWorld (console_out w)
                    (<[name := mkBinding LetBinding v]> (scope w))
                    (export_table w)
                    (status w))
       | Some (mkBinding ConstBinding _) =>
           (Throw (TypeError "Assignment to constant variable."), w)
       | None => (Throw (ReferenceError (name +:+ " is not defined")), w)
       end.

(** How [console.log] prints a primitive argument. *)
Definition display (v : JsValue) : string :=
  match v with
  | JUndefined => "undefined"
  | JNull => "null"
  | JBool true => "true"
  | JBool false => "false"
  | JStr s => s
  end.

(** [console.log(a1, ..., an)] writes one line, the arguments separated by
    one space.  (A first argument with [%] directives would be a format; the
    one of the module, ['API URL:'], has none.) *)
Definition console_log (args : list JsValue) : Eval unit :=
  λ w, (Normal (),
        mkWorld (console_out w ++ [String.concat " " (display <$> args)])
                (scope w)
                (export_table w)
                (status w)).

(** [export] of a local binding under a name. *)
Definition export_as (ename local : string) : Eval unit :=
  λ w, (Normal (),
        mkWorld (console_out w)
                (scope w)
                (<[ename := local]> (export_table w))
                (status w)).

(** *** Modules and their importers *)

Definition set_status (s : ModuleStatus) (w : World) : World :=
  mkWorld (console_out w) (scope w) (export_table w) s.

(** Importing a module runs its body the first time only; later imports
    get the cached record (or the cached failure). *)
Definition import_module (body : Eval unit) : Eval unit :=
  λ w, match status w with
       | NotEvaluated =>
           match body w with
           | (Normal _, w') => (Normal (), set_status Evaluated w')
           | (Throw e, w') => (Throw e, set_status (EvaluationFailed e) w')
           end
       | Evaluated => (Normal (), w)
       | EvaluationFailed e => (Throw e, w)
       end.

(** The value an importer sees under an export name. *)
Definition exported_value (ename : string) (w : World) : option JsValue :=
  local ← export_table w !! ename;
  b ← scope w !! local;
  Some (bind_value b).

(** What code can do once the module is loaded: import it again, read an
    export, try to assign through an import (imports are read-only views,
    whatever the kind of the binding), or run an assignment in the scope of
    the module itself. *)
Inductive ClientOp : Type :=
  | OpImport
  | OpRead (ename : string)
  | OpAssignImport (ename : string) (v : JsValue)
  | OpAssignLocal (name : string) (v : JsValue).

Definition client_step (body : Eval unit) (op : ClientOp) : Eval JsValue :=
  match op with
  | OpImport => import_module body;; mret JUndefined
  | OpRead ename =>
      λ w, match exported_value ename w with
           | Some v => (Normal v, w)
           | None => (Normal JUndefined, w)
           end
  | OpAssignImport _ _ => throw (TypeError "Assignment to constant variable.")
  | OpAssignLocal name v => assign name v;; mret v
  end.

(** Each operation runs on its own: one that throws does not stop the
    next. *)
Fixpoint run_ops (body : Eval unit) (ops : list ClientOp) (w : World)
  : list (Completion JsValue) * World :=
  match ops with
  | [] => ([], w)
  | op :: rest =>
      let '(c, w') := client_step body op w in
      let '(cs, w'') := run_ops body rest w' in
      (c :: cs, w'')
  end.

End JS.

Import JS.

(** ** The contract of the resolver

    Line 2 of both files with its two operands named: the value read from
    the environment and the literal. *)
Definition resolveApiUrl (override : JsValue) (fallback : string) : JsValue :=
  if ToBoolean override then override else JStr fallback.

(** ** [src/frontend/src/config.js] *)

Module FrontendConfig.

Definition FALLBACK : string := "https://my-erp-backend-theta.vercel.app".

(** [import.meta.env.VITE_API_URL || '<fallback>'] *)
Definition API_URL_init (fallback : string) (meta : ImportMeta)
  : Eval JsValue :=
  or_expr (member (import_meta_env meta) "VITE_API_URL") (literal fallback).

Definition module_body_with (fallback : string) (meta : ImportMeta)
  : Eval unit :=
  (* export const API_URL = import.meta.env.VITE_API_URL || '...'; *)
  url ← API_URL_init fallback meta;
  declare ConstBinding "API_URL" url;;
  export_as "API_URL" "API_URL";;
  (* console.log('API URL:', API_URL); *)
  shown ← read_var "API_URL";
  console_log [JStr "API URL:"; shown];;
  (* export default API_URL; *)
  dflt ← read_var "API_URL";
  declare ConstBinding "*default*" dflt;;
  export_as "default" "*default*".

Definition module_body : ImportMeta → Eval unit := module_body_with FALLBACK.

(** The named export as an importer sees it after the first load, under a
    Vite environment [env]. *)
Definition API_URL (env : gmap string JsValue) : option JsValue :=
  exported_value "API_URL"
    (snd (import_module (module_body (vite_meta env)) (initial_world []))).

End FrontendConfig.

(** ** [src/unnamed/part_000] *)

Module UnnamedPart000.

Definition FALLBACK : string := "https://my-erp-frontend-delta.vercel.app".

(** [import.meta.env.VITE_API_URL || '<fallback>'] *)
Definition API_URL_init (fallback : string) (meta : ImportMeta)
  : Eval JsValue :=
  or_expr (member (import_meta_env meta) "VITE_API_URL") (literal fallback).

Definition module_body_with (fallback : string) (meta : ImportMeta)
  : Eval unit :=
  (* export const API_URL = import.meta.env.VITE_API_URL || '...'; *)
  url ← API_URL_init fallback meta;
  declare ConstBinding "API_URL" url;;
  export_as "API_URL" "API_URL";;
  (* console.log('API URL:', API_URL); *)
  shown ← read_var "API_URL";
  console_log [JStr "API URL:"; shown];;
  (* export default API_URL; *)
  dflt ← read_var "API_URL";
  declare ConstBinding "*default*" dflt;;
  export_as "default" "*default*".

Definition module_body : ImportMeta → Eval unit := module_body_with FALLBACK.

Definition API_URL (env : gmap string JsValue) : option JsValue :=
  exported_value "API_URL"
    (snd (import_module (module_body (vite_meta env)) (initial_world []))).

End UnnamedPart000.

(** ** Scenarios of the specification, run on the model *)

Example scenario_absent :
  FrontendConfig.API_URL ∅ = Some (JStr "https://my-erp-backend-theta.vercel.app").
Proof. vm_compute. reflexivity. Qed.

Example scenario_staging :
  FrontendConfig.API_URL {[ "VITE_API_URL" := JStr "https://staging.example.com" ]}
  = Some (JStr "https://staging.example.com").
Proof. vm_compute. reflexivity. Qed.

Example scenario_empty :
  UnnamedPart000.API_URL {[ "VITE_API_URL" := JStr "" ]}
  = Some (JStr "https://my-erp-frontend-delta.vercel.app").
Proof. vm_compute. reflexivity. Qed.

Example scenario_log :
  console_out
    (snd (import_module (FrontendConfig.module_body (vite_meta ∅))
            (initial_world [])))
  = ["API URL: https://my-erp-backend-theta.vercel.app"].
Proof. vm_compute. reflexivity. Qed.

Example scenario_no_env :
  fst (FrontendConfig.module_body bare_meta (initial_world []))
  = Throw (TypeError
             "Cannot read properties of undefined (reading 'VITE_API_URL')").
Proof. vm_compute. reflexivity. Qed.

(** ** Evaluation lemmas *)

Section Evaluation.

Variables (fallback : string) (env : gmap string JsValue).

(** The value line 2 computes under [env]. *)
Definition resolved : JsValue :=
  resolveApiUrl (env_get env "VITE_API_URL") fallback.

(** The world a run of the body leaves behind. *)
Definition loaded (w : World) : World :=
  mkWorld
    (console_out w ++ ["API URL: " +:+ display resolved])
    (<["*default*" := mkBinding ConstBinding resolved]>
       (<["API_URL" := mkBinding ConstBinding resolved]> (scope w)))
    (<["default" := "*default*"]>
       (<["API_URL" := "API_URL"]> (export_table w)))
    (status w).

Lemma or_expr_run (l r : Eval JsValue) (v : JsValue) (w w' : World) :
  l w = (Normal v, w') →
  or_expr l r w = if ToBoolean v then (Normal v, w') else r w'.
Proof.
  intros Hl. unfold or_expr, mbind, Eval_bind, eval_bind. rewrite Hl.
  by destruct (ToBoolean v).
Qed.

Lemma frontend_init_run (w : World) :
  FrontendConfig.API_URL_init fallback (vite_meta env) w = (Normal resolved, w).
Proof.
  unfold FrontendConfig.API_URL_init.
  rewrite (or_expr_run _ _ (env_get env "VITE_API_URL") w w) by done.
  unfold resolved, resolveApiUrl.
  by destruct (ToBoolean (env_get env "VITE_API_URL")).
Qed.

Lemma frontend_body_run (w : World) :
  FrontendConfig.module_body_with fallback (vite_meta env) w
  = (Normal (), loaded w).
Proof.
  unfold FrontendConfig.module_body_with, mbind, Eval_bind, eval_bind.
  rewrite frontend_init_run.
  unfold declare, export_as, read_var, console_log; cbn.
  rewrite lookup_insert_eq; cbn.
  rewrite lookup_insert_eq; cbn.
  reflexivity.
Qed.

End Evaluation.

(** The second copy is the first one but for its literal, so every run
    lemma carries over. *)
Lemma unnamed_init_eq (fallback : string) (meta : ImportMeta) :
  UnnamedPart000.API_URL_init fallback meta
  = FrontendConfig.API_URL_init fallback meta.
Proof. reflexivity. Qed.

Lemma unnamed_body_eq (fallback : string) (meta : ImportMeta) :
  UnnamedPart000.module_body_with fallback meta
  = FrontendConfig.module_body_with fallback meta.
Proof. reflexivity. Qed.

Lemma unnamed_init_run (fallback : string) (env : gmap string JsValue)
    (w : World) :
  UnnamedPart000.API_URL_init fallback (vite_meta env) w
  = (Normal (resolved fallback env), w).
Proof. rewrite unnamed_init_eq. apply frontend_init_run. Qed.

Lemma unnamed_body_run (fallback : string) (env : gmap string JsValue)
    (w : World) :
  UnnamedPart000.module_body_with fallback (vite_meta env) w
  = (Normal (), loaded fallback env w).
Proof. rewrite unnamed_body_eq. apply frontend_body_run. Qed.

(** *** The first import and what later code can do *)

Section Loaded.

Variables (fallback : string) (env : gmap string JsValue).
Variable printed : list string.

(** The world once the module has been imported into a fresh realm whose
    console already holds [printed]. *)
Definition after_import : World :=
  set_status Evaluated (loaded fallback env (initial_world printed)).

Lemma import_run (body : Eval unit) (w : World) :
  status w = NotEvaluated →
  body w = (Normal (), loaded fallback env w) →
  import_module body w = (Normal (), set_status Evaluated (loaded fallback env w)).
Proof. intros Hs Hb. unfold import_module. by rewrite Hs, Hb. Qed.

Lemma frontend_import_run :
  import_module (FrontendConfig.module_body_with fallback (vite_meta env))
    (initial_world printed)
  = (Normal (), after_import).
Proof. apply import_run; [done | apply frontend_body_run]. Qed.

Lemma unnamed_import_run :
  import_module (UnnamedPart000.module_body_with fallback (vite_meta env))
    (initial_world printed)
  = (Normal (), after_import).
Proof. rewrite unnamed_body_eq. apply frontend_import_run. Qed.

Lemma after_import_exports :
  exported_value "API_URL" after_import = Some (resolved fallback env)
  ∧ exported_value "default" after_import = Some (resolved fallback env).
Proof. split; reflexivity. Qed.

Lemma after_import_console :
  console_out after_import
  = printed ++ ["API URL: " +:+ display (resolved fallback env)].
Proof. reflexivity. Qed.

(** Both bindings of the loaded module are [const]. *)
Lemma after_import_scope (name : string) (b : Binding) :
  scope after_import !! name = Some b → bind_kind b = ConstBinding.
Proof.
  unfold after_import, loaded; simpl. intros Hb.
  destruct (decide (name = "*default*")) as [-> | Hd].
  { rewrite lookup_insert_eq in Hb. by inversion Hb. }
  rewrite lookup_insert_ne in Hb by done.
  destruct (decide (name = "API_URL")) as [-> | Ha].
  { rewrite lookup_insert_eq in Hb. by inversion Hb. }
  rewrite lookup_insert_ne, lookup_empty in Hb by done. discriminate.
Qed.

Lemma assign_after_import (name : string) (v : JsValue) :
  snd (assign name v after_import) = after_import
  ∧ ∃ e, fst (assign name v after_import) = Throw e.
Proof.
  unfold assign.
  destruct (scope after_import !! name) as [[k u] |] eqn:Hb; [| eauto].
  apply after_import_scope in Hb. simpl in Hb. subst k. eauto.
Qed.

Lemma client_step_after_import (body : Eval unit) (op : ClientOp) :
  snd (client_step body op after_import) = after_import.
Proof.
  destruct op as [| ename | ename v | name v]; simpl.
  - reflexivity.
  - by destruct (exported_value ename after_import).
  - reflexivity.
  - unfold mbind, Eval_bind, eval_bind.
    destruct (assign_after_import name v) as [Hw [e He]].
    destruct (assign name v after_import) as [c w'].
    simpl in Hw, He. by subst.
Qed.

Lemma run_ops_after_import (body : Eval unit) (ops : list ClientOp) :
  snd (run_ops body ops after_import) = after_import.
Proof.
  induction ops as [| op rest IH]; [done |]. simpl.
  pose proof (client_step_after_import body op) as Hstep.
  destruct (client_step body op after_import) as [c w']. simpl in Hstep.
  subst w'. destruct (run_ops body rest after_import) as [cs w''].
  exact IH.
Qed.

End Loaded.

(** A [let] binding, by contrast, is changed by an assignment: the
    immutability of [API_URL] comes from the [const] of line 2. *)
Example let_binding_is_mutable :
  exported_value "x"
    (snd ((declare LetBinding "x" (JStr "a");;
           export_as "x" "x";;
           assign "x" (JStr "b")) (initial_world [])))
  = Some (JStr "b").
Proof. vm_compute. reflexivity. Qed.

Lemma frontend_API_URL_resolved (env : gmap string JsValue) :
  FrontendConfig.API_URL env = Some (resolved FrontendConfig.FALLBACK env).
Proof.
  unfold FrontendConfig.API_URL, FrontendConfig.module_body.
  rewrite frontend_import_run. apply after_import_exports.
Qed.

Lemma unnamed_API_URL_resolved (env : gmap string JsValue) :
  UnnamedPart000.API_URL env = Some (resolved UnnamedPart000.FALLBACK env).
Proof.
  unfold UnnamedPart000.API_URL, UnnamedPart000.module_body.
  rewrite unnamed_import_run. apply after_import_exports.
Qed.

(** *** The pure contract *)

Lemma resolveApiUrl_falsy (override : JsValue) (fallback : string) :
  ToBoolean override = false → resolveApiUrl override fallback = JStr fallback.
Proof. intros H. unfold resolveApiUrl. by rewrite H. Qed.

Lemma resolveApiUrl_truthy (override : JsValue) (fallback : string) :
  ToBoolean override = true → resolveApiUrl override fallback = override.
Proof. intros H. unfold resolveApiUrl. by rewrite H. Qed.

Lemma ToBoolean_nonempty (s : string) : s ≠ "" → ToBoolean (JStr s) = true.
Proof. by destruct s. Qed.

(** ** Properties of the resolved URL *)

(** C1: for an override that is [undefined], [null] or the empty string,
    [resolveApiUrl] returns exactly the fallback literal, and so does line 2
    of either file when the environment holds that override. *)
Theorem absent_override_gives_fallback
    (override : JsValue) (fallback : string)
    (env : gmap string JsValue) (w : World) :
  override = JUndefined ∨ override = JNull ∨ override = JStr "" →
  env_get env "VITE_API_URL" = override →
  resolveApiUrl override fallback = JStr fallback
  ∧ FrontendConfig.API_URL_init fallback (vite_meta env) w
    = (Normal (JStr fallback), w)
  ∧ UnnamedPart000.API_URL_init fallback (vite_meta env) w
    = (Normal (JStr fallback), w).
Proof.
  intros Habsent Henv.
  assert (resolveApiUrl override fallback = JStr fallback) as Hres.
  { apply resolveApiUrl_falsy. by destruct Habsent as [-> | [-> | ->]]. }
  split; [exact Hres |].
  rewrite frontend_init_run, unnamed_init_run.
  unfold resolved. by rewrite Henv, Hres.
Qed.

Lemma absent_override_gives_fallback_witness :
  resolveApiUrl (JStr "") FrontendConfig.FALLBACK
  = JStr FrontendConfig.FALLBACK
  ∧ FrontendConfig.API_URL_init FrontendConfig.FALLBACK
      (vite_meta {[ "VITE_API_URL" := JStr "" ]}) (initial_world [])
    = (Normal (JStr FrontendConfig.FALLBACK), initial_world [])
  ∧ UnnamedPart000.API_URL_init FrontendConfig.FALLBACK
      (vite_meta {[ "VITE_API_URL" := JStr "" ]}) (initial_world [])
    = (Normal (JStr FrontendConfig.FALLBACK), initial_world []).
Proof.
  apply (absent_override_gives_fallback (JStr "")).
  - right; right; reflexivity.
  - reflexivity.
Defined.

(** C2: a non-empty override string is returned exactly as it is, whatever
    the fallback: it is not trimmed, validated or normalised. *)
Theorem nonempty_override_unchanged
    (s fallback : string) (env : gmap string JsValue) (w : World) :
  s ≠ "" →
  env !! "VITE_API_URL" = Some (JStr s) →
  resolveApiUrl (JStr s) fallback = JStr s
  ∧ FrontendConfig.API_URL_init fallback (vite_meta env) w
    = (Normal (JStr s), w)
  ∧ UnnamedPart000.API_URL_init fallback (vite_meta env) w
    = (Normal (JStr s), w).
Proof.
  intros Hs Henv.
  assert (resolveApiUrl (JStr s) fallback = JStr s) as Hres.
  { apply resolveApiUrl_truthy. by apply ToBoolean_nonempty. }
  split; [exact Hres |].
  rewrite frontend_init_run, unnamed_init_run.
  unfold resolved, env_get. rewrite Henv. simpl. by rewrite Hres.
Qed.

Lemma nonempty_override_unchanged_witness :
  resolveApiUrl (JStr "https://staging.example.com") FrontendConfig.FALLBACK
  = JStr "https://staging.example.com"
  ∧ FrontendConfig.API_URL_init FrontendConfig.FALLBACK
      (vite_meta {[ "VITE_API_URL" := JStr "https://staging.example.com" ]})
      (initial_world [])
    = (Normal (JStr "https://staging.example.com"), initial_world [])
  ∧ UnnamedPart000.API_URL_init FrontendConfig.FALLBACK
      (vite_meta {[ "VITE_API_URL" := JStr "https://staging.example.com" ]})
      (initial_world [])
    = (Normal (JStr "https://staging.example.com"), initial_world []).
Proof.
  apply nonempty_override_unchanged.
  - discriminate.
  - reflexivity.
Defined.

(** Blanks around an override stay where they are. *)
Example blanks_are_kept :
  UnnamedPart000.API_URL {[ "VITE_API_URL" := JStr "  http://x/ " ]}
  = Some (JStr "  http://x/ ").
Proof. vm_compute. reflexivity. Qed.

(** C3: with a non-empty fallback literal the resolved value is neither
    [undefined] nor [null] nor the empty string, for every override, and it
    is the value line 2 of either file yields. *)
Theorem resolved_non_null_non_empty
    (override : JsValue) (fallback : string)
    (env : gmap string JsValue) (w : World) :
  fallback ≠ "" →
  env_get env "VITE_API_URL" = override →
  let apiUrl := resolveApiUrl override fallback in
  (apiUrl ≠ JUndefined ∧ apiUrl ≠ JNull ∧ apiUrl ≠ JStr "")
  ∧ FrontendConfig.API_URL_init fallback (vite_meta env) w = (Normal apiUrl, w)
  ∧ UnnamedPart000.API_URL_init fallback (vite_meta env) w = (Normal apiUrl, w).
Proof.
  intros Hfb Henv apiUrl. split.
  - subst apiUrl. unfold resolveApiUrl.
    destruct override as [| | [|] | [| c s]]; simpl;
      repeat split; congruence.
  - rewrite frontend_init_run, unnamed_init_run.
    unfold resolved. by rewrite Henv.
Qed.

Lemma resolved_non_null_non_empty_witness :
  let apiUrl := resolveApiUrl JUndefined FrontendConfig.FALLBACK in
  (apiUrl ≠ JUndefined ∧ apiUrl ≠ JNull ∧ apiUrl ≠ JStr "")
  ∧ FrontendConfig.API_URL_init FrontendConfig.FALLBACK (vite_meta ∅)
      (initial_world [])
    = (Normal apiUrl, initial_world [])
  ∧ UnnamedPart000.API_URL_init FrontendConfig.FALLBACK (vite_meta ∅)
      (initial_world [])
    = (Normal apiUrl, initial_world []).
Proof.
  apply (resolved_non_null_non_empty JUndefined FrontendConfig.FALLBACK ∅).
  - discriminate.
  - reflexivity.
Defined.

(** C4: one run of the module body writes exactly one line to the console,
    ["API URL: "] followed by the resolved value as it is ([display] leaves
    a string untouched), for every environment and in either file. *)
Theorem one_log_line
    (fallback : string) (env : gmap string JsValue) (w : World) :
  let apiUrl := resolveApiUrl (env_get env "VITE_API_URL") fallback in
  let line := "API URL: " +:+ display apiUrl in
  FrontendConfig.module_body_with fallback (vite_meta env) w
  = (Normal (), loaded fallback env w)
  ∧ UnnamedPart000.module_body_with fallback (vite_meta env) w
    = (Normal (), loaded fallback env w)
  ∧ console_out (loaded fallback env w) = console_out w ++ [line]
  ∧ (∀ s : string, display (JStr s) = s).
Proof.
  intros apiUrl line.
  rewrite frontend_body_run, unnamed_body_run.
  repeat split.
Qed.

(** C5: line 2 is a pure function of the override and the fallback: in any
    world it yields [resolveApiUrl] of them and leaves the world as it was,
    so two evaluations in a row yield the same value twice. *)
Theorem resolution_is_pure
    (fallback : string) (env : gmap string JsValue) (w : World) :
  let apiUrl := resolveApiUrl (env_get env "VITE_API_URL") fallback in
  FrontendConfig.API_URL_init fallback (vite_meta env) w = (Normal apiUrl, w)
  ∧ UnnamedPart000.API_URL_init fallback (vite_meta env) w = (Normal apiUrl, w)
  ∧ (a ← FrontendConfig.API_URL_init fallback (vite_meta env);
     b ← FrontendConfig.API_URL_init fallback (vite_meta env);
     mret (a, b)) w
    = (Normal (apiUrl, apiUrl), w)
  ∧ (a ← UnnamedPart000.API_URL_init fallback (vite_meta env);
     b ← UnnamedPart000.API_URL_init fallback (vite_meta env);
     mret (a, b)) w
    = (Normal (apiUrl, apiUrl), w).
Proof.
  intros apiUrl.
  unfold mbind, Eval_bind, eval_bind.
  rewrite ?unnamed_init_run, ?frontend_init_run.
  repeat split.
Qed.

(** C6: under a Vite environment the resolution and the whole module body
    complete normally, whatever the override is; an override that is not a
    URL at all is passed through. *)
Theorem resolution_cannot_fail
    (fallback : string) (env : gmap string JsValue) (w : World) :
  fst (FrontendConfig.API_URL_init fallback (vite_meta env) w)
  = Normal (resolveApiUrl (env_get env "VITE_API_URL") fallback)
  ∧ fst (UnnamedPart000.API_URL_init fallback (vite_meta env) w)
    = Normal (resolveApiUrl (env_get env "VITE_API_URL") fallback)
  ∧ fst (FrontendConfig.module_body_with fallback (vite_meta env) w)
    = Normal ()
  ∧ fst (UnnamedPart000.module_body_with fallback (vite_meta env) w)
    = Normal ()
  ∧ (∀ (c : Ascii.ascii) (s : string),
       resolveApiUrl (JStr (String c s)) fallback = JStr (String c s))
  ∧ FrontendConfig.API_URL {[ "VITE_API_URL" := JStr "not a url: %%" ]}
    = Some (JStr "not a url: %%").
Proof.
  rewrite frontend_init_run, unnamed_init_run.
  rewrite frontend_body_run, unnamed_body_run.
  repeat split.
Qed.

(** C7: in [src/frontend/src/config.js], with no override in the
    environment, the exported value is exactly
    ["https://my-erp-backend-theta.vercel.app"]. *)
Theorem frontend_default_url (env : gmap string JsValue) :
  env !! "VITE_API_URL" = None →
  FrontendConfig.API_URL env
  = Some (JStr "https://my-erp-backend-theta.vercel.app")
  ∧ resolveApiUrl (env_get env "VITE_API_URL")
      "https://my-erp-backend-theta.vercel.app"
    = JStr "https://my-erp-backend-theta.vercel.app".
Proof.
  intros Henv. rewrite frontend_API_URL_resolved.
  unfold resolved, env_get. rewrite Henv. split; reflexivity.
Qed.

Lemma frontend_default_url_witness :
  FrontendConfig.API_URL ∅
  = Some (JStr "https://my-erp-backend-theta.vercel.app")
  ∧ resolveApiUrl (env_get ∅ "VITE_API_URL")
      "https://my-erp-backend-theta.vercel.app"
    = JStr "https://my-erp-backend-theta.vercel.app".
Proof. apply (frontend_default_url ∅). reflexivity. Defined.

(** C8: taken as functions of the fallback literal and of the environment,
    line 2 and the whole body of [src/frontend/src/config.js] are the same
    functions as those of [src/unnamed/part_000]; the files differ in the
    literal alone. *)
Theorem copies_differ_in_literal_only :
  FrontendConfig.API_URL_init = UnnamedPart000.API_URL_init
  ∧ FrontendConfig.module_body_with = UnnamedPart000.module_body_with
  ∧ (∀ (override : JsValue) (fallback : string) (w : World),
       FrontendConfig.API_URL_init fallback
         (vite_meta {[ "VITE_API_URL" := override ]}) w
       = (Normal (resolveApiUrl override fallback), w)
       ∧ UnnamedPart000.API_URL_init fallback
           (vite_meta {[ "VITE_API_URL" := override ]}) w
         = (Normal (resolveApiUrl override fallback), w))
  ∧ FrontendConfig.module_body
    = FrontendConfig.module_body_with "https://my-erp-backend-theta.vercel.app"
  ∧ UnnamedPart000.module_body
    = UnnamedPart000.module_body_with "https://my-erp-frontend-delta.vercel.app"
  ∧ String.eqb FrontendConfig.FALLBACK UnnamedPart000.FALLBACK = false.
Proof.
  split; [reflexivity |]. split; [reflexivity |]. split.
  - intros override fallback w.
    rewrite frontend_init_run, unnamed_init_run.
    unfold resolved, env_get. rewrite lookup_singleton_eq. by split.
  - repeat split.
Qed.

(** C9: the first import creates the value; after it, whatever importers
    or the module do (import again, read, try to assign through an import
    or in the module scope), the world stays as the first import left it:
    both exports still hold the resolved value and the console still holds
    the single line of the first load. *)
Theorem resolved_value_is_immutable
    (fallback : string) (env : gmap string JsValue)
    (printed : list string) (ops : list ClientOp) :
  let apiUrl := resolveApiUrl (env_get env "VITE_API_URL") fallback in
  let frontend := FrontendConfig.module_body_with fallback (vite_meta env) in
  let unnamed := UnnamedPart000.module_body_with fallback (vite_meta env) in
  let w1 := snd (import_module frontend (initial_world printed)) in
  let w2 := snd (run_ops frontend ops w1) in
  let u1 := snd (import_module unnamed (initial_world printed)) in
  let u2 := snd (run_ops unnamed ops u1) in
  (exported_value "API_URL" w1 = Some apiUrl
   ∧ exported_value "default" w1 = Some apiUrl
   ∧ status w1 = Evaluated
   ∧ w2 = w1
   ∧ exported_value "API_URL" w2 = Some apiUrl
   ∧ exported_value "default" w2 = Some apiUrl
   ∧ console_out w2 = printed ++ ["API URL: " +:+ display apiUrl])
  ∧ (exported_value "API_URL" u1 = Some apiUrl
     ∧ exported_value "default" u1 = Some apiUrl
     ∧ status u1 = Evaluated
     ∧ u2 = u1
     ∧ exported_value "API_URL" u2 = Some apiUrl
     ∧ exported_value "default" u2 = Some apiUrl
     ∧ console_out u2 = printed ++ ["API URL: " +:+ display apiUrl]).
Proof.
  intros apiUrl frontend unnamed w1 w2 u1 u2.
  assert (w1 = after_import fallback env printed) as Hw1.
  { subst w1 frontend. by rewrite frontend_import_run. }
  assert (u1 = after_import fallback env printed) as Hu1.
  { subst u1 unnamed. by rewrite unnamed_import_run. }
  assert (w2 = w1) as Hw2.
  { subst w2. rewrite Hw1. apply run_ops_after_import. }
  assert (u2 = u1) as Hu2.
  { subst u2. rewrite Hu1. apply run_ops_after_import. }
  rewrite Hw2, Hu2, Hw1, Hu1.
  repeat split.
Qed.

(** C10: the resolved value is the override itself or the fallback
    literal, and nothing else, for every override. *)
Theorem resolved_is_override_or_fallback
    (fallback : string) (env : gmap string JsValue) (w : World) :
  let override := env_get env "VITE_API_URL" in
  (∀ o : JsValue,
     resolveApiUrl o fallback = o ∨ resolveApiUrl o fallback = JStr fallback)
  ∧ (FrontendConfig.API_URL_init fallback (vite_meta env) w
     = (Normal override, w)
     ∨ FrontendConfig.API_URL_init fallback (vite_meta env) w
       = (Normal (JStr fallback), w))
  ∧ (UnnamedPart000.API_URL_init fallback (vite_meta env) w
     = (Normal override, w)
     ∨ UnnamedPart000.API_URL_init fallback (vite_meta env) w
       = (Normal (JStr fallback), w)).
Proof.
  intros override. split.
  { intros o. unfold resolveApiUrl. destruct (ToBoolean o); [by left | by right]. }
  rewrite frontend_init_run, unnamed_init_run.
  unfold resolved, resolveApiUrl. fold override.
  destruct (ToBoolean override); [split; by left | split; by right].
Qed.

(** ** Further properties of the two files *)


Lemma exported_after_import
    (fallback : string) (env : gmap string JsValue) (printed : list string)
    (ename : string) :
  exported_value ename (after_import fallback env printed)
  = if bool_decide (ename = "API_URL" ∨ ename = "default")
    then Some (resolved fallback env) else None.
Proof.
  unfold exported_value, after_import, loaded; simpl.
  destruct (decide (ename = "default")) as [-> | Hd]; [reflexivity |].
  rewrite lookup_insert_ne by done.
  destruct (decide (ename = "API_URL")) as [-> | Ha]; [reflexivity |].
  rewrite lookup_insert_ne, lookup_empty by done. simpl.
  rewrite bool_decide_eq_false_2; [done | tauto].
Qed.

(** X1: a loaded module exports two names and no other, [API_URL] (line 2)
    and [default] (line 6), and both hold the resolved value: the named and
    the default import of either file are interchangeable. *)
Theorem exports_are_API_URL_and_default
    (fallback : string) (env : gmap string JsValue) (printed : list string)
    (ename : string) :
  let apiUrl := resolveApiUrl (env_get env "VITE_API_URL") fallback in
  let seen := if bool_decide (ename = "API_URL" ∨ ename = "default")
              then Some apiUrl else None in
  exported_value ename
    (snd (import_module
            (FrontendConfig.module_body_with fallback (vite_meta env))
            (initial_world printed)))
  = seen
  ∧ exported_value ename
      (snd (import_module
              (UnnamedPart000.module_body_with fallback (vite_meta env))
              (initial_world printed)))
    = seen.
Proof.
  intros apiUrl seen.
  rewrite unnamed_import_run, frontend_import_run. simpl.
  split; apply exported_after_import.
Qed.


(** X3: [VITE_API_URL] is the only key of the environment the module
    consults: two environments that read the same under that key give the
    same run of the body, whatever else they define. *)
Theorem only_VITE_API_URL_is_read
    (fallback : string) (env1 env2 : gmap string JsValue) (w : World) :
  env_get env1 "VITE_API_URL" = env_get env2 "VITE_API_URL" →
  FrontendConfig.module_body_with fallback (vite_meta env1) w
  = FrontendConfig.module_body_with fallback (vite_meta env2) w
  ∧ UnnamedPart000.module_body_with fallback (vite_meta env1) w
    = UnnamedPart000.module_body_with fallback (vite_meta env2) w.
Proof.
  intros Hsame.
  rewrite ?unnamed_body_run, ?frontend_body_run.
  unfold loaded, resolved. by rewrite Hsame.
Qed.

Lemma only_VITE_API_URL_is_read_witness :
  FrontendConfig.module_body_with FrontendConfig.FALLBACK
    (vite_meta {[ "VITE_API_URL" := JStr "http://a" ]}) (initial_world [])
  = FrontendConfig.module_body_with FrontendConfig.FALLBACK
      (vite_meta (<[ "API_URL" := JStr "http://b" ]>
                    {[ "VITE_API_URL" := JStr "http://a" ]}))
      (initial_world [])
  ∧ UnnamedPart000.module_body_with FrontendConfig.FALLBACK
      (vite_meta {[ "VITE_API_URL" := JStr "http://a" ]}) (initial_world [])
    = UnnamedPart000.module_body_with FrontendConfig.FALLBACK
        (vite_meta (<[ "API_URL" := JStr "http://b" ]>
                      {[ "VITE_API_URL" := JStr "http://a" ]}))
        (initial_world []).
Proof. apply only_VITE_API_URL_is_read. reflexivity. Defined.

(** X4: the two files export the same URL exactly when the override is
    truthy; with an absent (falsy) override each one falls back to its own
    literal and they disagree. *)
Theorem copies_agree_iff_override_truthy (env : gmap string JsValue) :
  bool_decide (FrontendConfig.API_URL env = UnnamedPart000.API_URL env)
  = ToBoolean (env_get env "VITE_API_URL").
Proof.
  rewrite frontend_API_URL_resolved, unnamed_API_URL_resolved.
  unfold resolved, resolveApiUrl.
  destruct (ToBoolean (env_get env "VITE_API_URL")).
  - by apply bool_decide_eq_true_2.
  - apply bool_decide_eq_false_2. discriminate.
Qed.

(** X5: with the literals the files really have, the exported [API_URL]
    is always there and always truthy (so never [undefined], [null] or
    the empty string), under every environment. *)
Theorem exported_API_URL_is_truthy (env : gmap string JsValue) :
  (∃ v, FrontendConfig.API_URL env = Some v ∧ ToBoolean v = true)
  ∧ (∃ v, UnnamedPart000.API_URL env = Some v ∧ ToBoolean v = true).
Proof.
  rewrite frontend_API_URL_resolved, unnamed_API_URL_resolved.
  unfold resolved, resolveApiUrl.
  destruct (ToBoolean (env_get env "VITE_API_URL")) eqn:Ht; split; eauto.
Qed.


(** X7: resolution is idempotent, and the copies chain: feeding a resolved
    value back as the override gives that value again, so a build that pins
    [VITE_API_URL] to what [config.js] resolved makes [part_000] resolve to
    the same URL, and the other way round. *)
Theorem resolution_is_idempotent
    (override : JsValue) (fallback : string) (env : gmap string JsValue) :
  resolveApiUrl (resolveApiUrl override fallback) fallback
  = resolveApiUrl override fallback
  ∧ UnnamedPart000.API_URL
      (<[ "VITE_API_URL" :=
            resolveApiUrl (env_get env "VITE_API_URL") FrontendConfig.FALLBACK ]>
         env)
    = FrontendConfig.API_URL env
  ∧ FrontendConfig.API_URL
      (<[ "VITE_API_URL" :=
            resolveApiUrl (env_get env "VITE_API_URL") UnnamedPart000.FALLBACK ]>
         env)
    = UnnamedPart000.API_URL env.
Proof.
  split.
  - unfold resolveApiUrl.
    destruct (ToBoolean override) eqn:Ht; [by rewrite Ht |].
    by destruct fallback.
  - rewrite !frontend_API_URL_resolved, !unnamed_API_URL_resolved.
    unfold resolved, env_get. rewrite !lookup_insert_eq. simpl.
    unfold resolveApiUrl.
    destruct (ToBoolean (default JUndefined (env !! "VITE_API_URL"))) eqn:Ht;
      simpl; rewrite ?Ht; by split.
Qed.
